(** * Export finalization of the StableHLO quantizer

    A shallow embedding of
    [tensorflow/compiler/mlir/quantization/stablehlo/cc/export.cc]:
    the two name-based lookups ([GetNodeName], [FindFilePrefixTensorName]),
    the saver descriptor construction ([CreateSaverDef]), the packaging of
    the result ([CreateExportedModel]) and the export pass pipeline
    ([AddExportPasses]).

    Strings are [String.string]; protobuf repeated fields and
    [std::vector] are lists; protobuf and abseil maps are [gmap]s;
    [absl::StatusOr] is a sum type.  [VLOG] output is diagnostic only and
    is not part of the model. *)

From stdpp Require Import gmap strings list fin_maps.

(** ** The abseil string helpers used by the file *)

(** [absl::StartsWith(text, prefix)]: bytewise comparison of the first
    [prefix.size()] bytes. *)
Fixpoint StartsWith (text prefix : string) {struct prefix} : bool :=
  match prefix with
  | EmptyString => true
  | String c prefix' =>
      match text with
      | EmptyString => false
      | String d text' => Ascii.eqb c d && StartsWith text' prefix'
      end
  end.

(** [absl::StrContains(haystack, needle)] is
    [haystack.find(needle, 0) != npos]: the needle is tried at every
    offset of the haystack, from the left, bytes compared for equality. *)
Fixpoint StrContains (haystack needle : string) : bool :=
  StartsWith haystack needle
  || match haystack with
     | EmptyString => false
     | String _ rest => StrContains rest needle
     end.

(** [absl::StrCat] of two pieces. *)
Definition StrCat (a b : string) : string := a +:+ b.

(** [absl::StrJoin(range, separator)]. *)
Fixpoint StrJoin (range : list string) (separator : string) : string :=
  match range with
  | [] => ""
  | [x] => x
  | x :: (_ :: _) as rest => x +:+ separator +:+ StrJoin rest separator
  end.

(** [absl::c_all_of], [absl::c_none_of] and [absl::c_find] (the latter
    only ever compared with [end()]). *)
Definition c_all_of {A} (c : list A) (pred : A → bool) : bool := forallb pred c.
Definition c_none_of {A} (c : list A) (pred : A → bool) : bool :=
  negb (existsb pred c).
Definition c_find_not_end (c : list string) (value : string) : bool :=
  existsb (String.eqb value) c.

(** ** [absl::Status] and [absl::StatusOr] *)

Inductive StatusCode : Type :=
  | kOk | kCancelled | kUnknown | kInvalidArgument | kDeadlineExceeded
  | kNotFound | kAlreadyExists | kPermissionDenied | kResourceExhausted
  | kFailedPrecondition | kAborted | kOutOfRange | kUnimplemented
  | kInternal | kUnavailable | kDataLoss | kUnauthenticated.

Record Status : Type := mkStatus { code : StatusCode; message : string }.

Definition InternalError (msg : string) : Status :=
  {| code := kInternal; message := msg |}.

Inductive StatusOr (A : Type) : Type :=
  | OkValue (value : A)
  | NotOk (status : Status).
Arguments OkValue {A} value.
Arguments NotOk {A} status.

(** ** What "contains" and "ends with" mean *)

(** [needle] occurs in [haystack] as a contiguous run of equal bytes. *)
Definition IsSubstring (needle haystack : string) : Prop :=
  ∃ before after, haystack = before +:+ needle +:+ after.

Definition EndsWith (text suffix : string) : Prop :=
  ∃ front, text = front +:+ suffix.

(** ** [GetNodeName] *)

Fixpoint GetNodeName (control_ret_node_names : list string)
    (contains : string) : string :=
  match control_ret_node_names with
  | [] => ""
  | node_name :: rest =>
      if StrContains node_name contains then node_name
      else GetNodeName rest contains
  end.

(** ** The protobuf messages read and written by the file *)

(** [tensorflow.AttrValue.ListValue]; of its repeated fields the file
    reads [s] only. *)
Module ListValue.

Record t : Type := mk { s : list string; i : list Z; b : list bool }.

Definition default_instance : t := {| s := []; i := []; b := [] |}.

End ListValue.

(** [tensorflow.AttrValue]: a oneof.  [value_other] stands for the cases
    ([f], [type], [shape], [tensor], [func]) whose payload the file
    never looks at. *)
Inductive AttrValue : Type :=
  | value_s (v : string)
  | value_i (v : Z)
  | value_b (v : bool)
  | value_list (v : ListValue.t)
  | value_placeholder (v : string)
  | value_other
  | VALUE_NOT_SET.

(** The generated accessor [AttrValue::list()]: the list when the oneof
    holds one, the default (empty) [ListValue] otherwise. *)
Definition AttrValue_list (a : AttrValue) : ListValue.t :=
  match a with
  | value_list v => v
  | _ => ListValue.default_instance
  end.

Record NodeDef : Type := mkNodeDef {
  name : string;
  op : string;
  input : list string;
  device : string;
  attr : gmap string AttrValue
}.

(** [tensorflow.GraphDef]: [node] is a repeated field, iterated in
    order; the function library and version fields are not read here. *)
Record GraphDef : Type := mkGraphDef { node : list NodeDef }.

Inductive CheckpointFormatVersion : Type := LEGACY | V1 | V2.

(** [tensorflow.SaverDef] without [keep_checkpoint_every_n_hours], a
    float that the file neither reads nor writes. *)
Record SaverDef : Type := mkSaverDef {
  filename_tensor_name : string;
  save_tensor_name : string;
  restore_op_name : string;
  max_to_keep : Z;
  sharded : bool;
  version : CheckpointFormatVersion
}.

(** [SaverDef saver_def{}]. *)
Definition SaverDef_default : SaverDef :=
  {| filename_tensor_name := ""; save_tensor_name := "";
     restore_op_name := ""; max_to_keep := 0; sharded := false;
     version := LEGACY |}.

Definition set_version (v : CheckpointFormatVersion) (d : SaverDef) : SaverDef :=
  {| filename_tensor_name := filename_tensor_name d;
     save_tensor_name := save_tensor_name d;
     restore_op_name := restore_op_name d;
     max_to_keep := max_to_keep d; sharded := sharded d; version := v |}.

Definition set_filename_tensor_name (x : string) (d : SaverDef) : SaverDef :=
  {| filename_tensor_name := x;
     save_tensor_name := save_tensor_name d;
     restore_op_name := restore_op_name d;
     max_to_keep := max_to_keep d; sharded := sharded d;
     version := version d |}.

Definition set_restore_op_name (x : string) (d : SaverDef) : SaverDef :=
  {| filename_tensor_name := filename_tensor_name d;
     save_tensor_name := save_tensor_name d;
     restore_op_name := x;
     max_to_keep := max_to_keep d; sharded := sharded d;
     version := version d |}.

Definition set_save_tensor_name (x : string) (d : SaverDef) : SaverDef :=
  {| filename_tensor_name := filename_tensor_name d;
     save_tensor_name := x;
     restore_op_name := restore_op_name d;
     max_to_keep := max_to_keep d; sharded := sharded d;
     version := version d |}.

(** [tensorflow.AssetFileDef], with the tensor reduced to its name. *)
Record AssetFileDef : Type := mkAssetFileDef {
  tensor_info_name : string;
  filename : string
}.

Record ExportedModel : Type := mkExportedModel {
  graph_def : GraphDef;
  init_node_name : string;
  checkpoint_dir : string;
  function_aliases : gmap string string;
  asset_file_defs : list AssetFileDef;
  saver_def : option SaverDef
}.

(** [ExportedModel exported_model{}]. *)
Definition ExportedModel_default : ExportedModel :=
  {| graph_def := {| node := [] |}; init_node_name := "";
     checkpoint_dir := ""; function_aliases := ∅;
     asset_file_defs := []; saver_def := None |}.

(** ** Constants declared in headers outside this file *)

(** Modelled from the spec: [FunctionLibraryDefinition::kArgOp], declared
    in [tensorflow/core/framework/function.h]; the comment above
    [FindFilePrefixTensorName] calls the nodes it selects the "_Arg"
    nodes. *)
Definition kArgOp : string := "_Arg".

(** Modelled from the spec: [kTfSavedModelIndexPathAttr], declared in
    [tf_saved_model.h]; the same comment spells the attribute
    [tf_saved_model.index_path]. *)
Definition kTfSavedModelIndexPathAttr : string := "tf_saved_model.index_path".

(** Modelled from the spec: [kTfFilePrefix], declared in
    [passes/constants.h]; the reserved index-path marker. *)
Definition kTfFilePrefix : string := "__tf_file_prefix".

(** ** [FindFilePrefixTensorName] *)

(** The two nested tests of the loop body that guard the [return]. *)
Definition is_file_prefix_arg (node_def : NodeDef) : bool :=
  String.eqb (op node_def) kArgOp
  && match attr node_def !! kTfSavedModelIndexPathAttr with
     | Some index_path_attr =>
         let index_paths := ListValue.s (AttrValue_list index_path_attr) in
         c_find_not_end index_paths kTfFilePrefix
     | None => false
     end.

Fixpoint FindFilePrefixTensorName_nodes (nodes : list NodeDef) : string :=
  match nodes with
  | [] => ""
  | node_def :: rest =>
      if is_file_prefix_arg node_def then StrCat (name node_def) ":0"
      else FindFilePrefixTensorName_nodes rest
  end.

Definition FindFilePrefixTensorName (graph_def : GraphDef) : string :=
  FindFilePrefixTensorName_nodes (node graph_def).

(** A matching argument node, as a proposition: an argument op whose
    index-path attribute is a list of strings with the reserved marker
    among its elements. *)
Definition IsFilePrefixArg (node_def : NodeDef) : Prop :=
  op node_def = "_Arg" ∧
  ∃ lv, attr node_def !! "tf_saved_model.index_path" = Some (value_list lv)
        ∧ "__tf_file_prefix" ∈ ListValue.s lv.

(** ** [CreateSaverDef] *)

(** [absl::string_view::empty]. *)
Definition empty (sv : string) : bool :=
  match sv with
  | EmptyString => true
  | String _ _ => false
  end.

Definition SaverDef_error_prefix : string :=
  "Failed to create SaverDef. Fields should be either all "
  +:+ "empty strings or all non-empty strings. Got fields: ".

Section Markers.
(** The two substring markers are declared in headers outside this
    file ([tf_saved_model.h] and [passes/constants.h]) and nothing
    here fixes their values: the function is modelled for any. *)
Variable kTfSavedModelInitializerRestoreType : string.
Variable kTfQuantSaveOpName : string.

Definition CreateSaverDef (control_ret_node_names : list string)
    (graph_def : GraphDef) : StatusOr (option SaverDef) :=
  let filename_tensor_name := FindFilePrefixTensorName graph_def in
  let restore_op_name :=
    GetNodeName control_ret_node_names kTfSavedModelInitializerRestoreType in
  let save_node_name :=
    GetNodeName control_ret_node_names kTfQuantSaveOpName in
  let fields := [filename_tensor_name; restore_op_name; save_node_name] in
  let is_empty_predicate := fun sv : string => empty sv in
  if c_all_of fields is_empty_predicate then OkValue None
  else if c_none_of fields is_empty_predicate then
    let saver_def := SaverDef_default in
    let saver_def := set_version V2 saver_def in
    let saver_def := set_filename_tensor_name filename_tensor_name saver_def in
    let saver_def := set_restore_op_name restore_op_name saver_def in
    let saver_def :=
      set_save_tensor_name (StrCat save_node_name ":0") saver_def in
    OkValue (Some saver_def)
  else
    NotOk (InternalError
             (StrCat SaverDef_error_prefix (StrJoin fields ","))).
End Markers.

(** ** [CreateExportedModel] *)

(** The parameter [GraphDef&& graph_def] is a reference to an object of
    the caller.  After the call that object either still holds its value
    or has been moved from. *)
Inductive Referent (A : Type) : Type :=
  | Holds (value : A)
  | MovedFrom.
Arguments Holds {A} value.
Arguments MovedFrom {A}.

(** [dst = src] where [src] is an lvalue: the copy assignment operator
    [operator=(const T&)], which leaves the source as it is. *)
Definition copy_assign {A} (src : A) : A * Referent A := (src, Holds src).

(** [dst = std::move(src)]: the move assignment operator
    [operator=(T&&)], which takes the value out of the source. *)
Definition move_assign {A} (src : A) : A * Referent A := (src, MovedFrom).

(** [Map::insert(first, last)] of protobuf: a key already present keeps
    its value. *)
Definition Map_insert_range (m range : gmap string string) : gmap string string :=
  m ∪ range.

(** [RepeatedPtrField::Add] followed by the assignment of the new
    element. *)
Definition RepeatedPtrField_Add {A} (field : list A) (x : A) : list A :=
  field ++ [x].

(** The result is the exported model together with the state in which
    the caller's graph object is left.  In the body [graph_def] is a
    named variable, hence an lvalue, and line 110 assigns from it
    without [std::move]: overload resolution picks the copy
    assignment. *)
Definition CreateExportedModel (graph_def_arg : GraphDef)
    (init_node_name_arg checkpoint_dir_arg : string)
    (saver_def_arg : option SaverDef)
    (function_aliases_arg : gmap string string)
    (asset_file_defs_arg : list AssetFileDef)
    : ExportedModel * Referent GraphDef :=
  let exported_model := ExportedModel_default in
  let '(g, caller_graph_def) := copy_assign graph_def_arg in
  let exported_model :=
    {| graph_def := g;
       init_node_name := init_node_name_arg;
       checkpoint_dir := checkpoint_dir_arg;
       function_aliases :=
         Map_insert_range (function_aliases exported_model)
                          function_aliases_arg;
       asset_file_defs :=
         foldl RepeatedPtrField_Add (asset_file_defs exported_model)
               asset_file_defs_arg;
       saver_def :=
         match saver_def_arg with
         | Some sd => Some sd
         | None => saver_def exported_model
         end |} in
  (exported_model, caller_graph_def).

(** ** [AddExportPasses] *)

(** The passes are opaque; each constructor names the factory function
    that creates one. *)
Inductive PassKind : Type :=
  | DuplicateShapeDeterminingConstantsPass
  | InsertMainFunctionPass
  | LiftHashTableOpsAsArgsPass
  | FunctionalToExecutorDialectConversionPass
  | BreakUpIslandsPass
  | MergeInitializerFunctionOpsToMainPass
  | MergeSaveFunctionOpsToMainPass
  | MergeDuplicateResourceOpsPass
  | StripNoinlineAttributePass.

Inductive OpAnchor : Type := FuncOp.

(** One entry of a pass manager: a pass on the module, or a pass nested
    on the operations of one kind. *)
Inductive Stage : Type :=
  | OnModule (p : PassKind)
  | Nested (anchor : OpAnchor) (p : PassKind).

(** [mlir::PassManager], as the ordered list of what was added to it. *)
Definition PassManager : Type := list Stage.

Definition addPass (pm : PassManager) (p : PassKind) : PassManager :=
  pm ++ [OnModule p].

Definition addNestedPass (anchor : OpAnchor) (pm : PassManager)
    (p : PassKind) : PassManager :=
  pm ++ [Nested anchor p].

Definition AddExportPasses (pm : PassManager)
    (duplicate_shape_determining_constants : bool) : PassManager :=
  let pm :=
    if duplicate_shape_determining_constants
    then addNestedPass FuncOp pm DuplicateShapeDeterminingConstantsPass
    else pm in
  let pm := addPass pm InsertMainFunctionPass in
  let pm := addPass pm LiftHashTableOpsAsArgsPass in
  let pm := addNestedPass FuncOp pm FunctionalToExecutorDialectConversionPass in
  let pm := addPass pm BreakUpIslandsPass in
  let pm := addPass pm MergeInitializerFunctionOpsToMainPass in
  let pm := addPass pm MergeSaveFunctionOpsToMainPass in
  let pm := addNestedPass FuncOp pm MergeDuplicateResourceOpsPass in
  addPass pm StripNoinlineAttributePass.

(** The stage of a given pass, however it was added. *)
Definition stage_pass (st : Stage) : PassKind :=
  match st with
  | OnModule p => p
  | Nested _ p => p
  end.

(** How many of the given fields are empty strings. *)
Definition count_empty (fields : list string) : nat :=
  length (filter (λ x, x = "") fields).

(** ** Sample nodes *)

Definition index_path_attr (paths : list string) : gmap string AttrValue :=
  {[ "tf_saved_model.index_path" :=
       value_list {| ListValue.s := paths; ListValue.i := [];
                     ListValue.b := [] |} ]}.

Definition arg_node (nm : string) (paths : list string) : NodeDef :=
  {| name := nm; op := "_Arg"; input := []; device := "";
     attr := index_path_attr paths |}.

Definition const_node (nm : string) : NodeDef :=
  {| name := nm; op := "Const"; input := []; device := ""; attr := ∅ |}.

Definition sample_graph : GraphDef :=
  {| node := [const_node "c"; arg_node "file_prefix" ["__tf_file_prefix"]] |}.

(** * Properties *)

(** ** Strings *)

Lemma append_nil (b : string) : "" +:+ b = b.
Proof. reflexivity. Qed.

Lemma append_cons (ch : Ascii.ascii) (a b : string) :
  String ch a +:+ b = String ch (a +:+ b).
Proof. reflexivity. Qed.

Lemma empty_false (sv : string) : empty sv = false ↔ sv ≠ "".
Proof. destruct sv; simpl; split; congruence. Qed.

Lemma StartsWith_spec (text prefix : string) :
  StartsWith text prefix = true ↔ ∃ rest, text = prefix +:+ rest.
Proof.
  revert text. induction prefix as [|c prefix IH]; intros text; simpl.
  - split; [intros _; exists text; reflexivity | done].
  - destruct text as [|d text].
    + split; [done | intros [rest Hrest]; discriminate].
    + rewrite andb_true_iff, Ascii.eqb_eq, IH. split.
      * intros [-> [rest ->]]. by exists rest.
      * intros [rest Hrest]. rewrite append_cons in Hrest.
        injection Hrest as -> ->. eauto.
Qed.

Lemma StrContains_spec (haystack needle : string) :
  StrContains haystack needle = true ↔ IsSubstring needle haystack.
Proof.
  unfold IsSubstring.
  induction haystack as [|c haystack IH]; simpl.
  - rewrite orb_false_r, StartsWith_spec. split.
    + intros [rest Hrest]. exists "", rest. by rewrite append_nil.
    + intros [before [after Heq]]. destruct before; [eauto | discriminate].
  - rewrite orb_true_iff, StartsWith_spec, IH. split.
    + intros [[rest Hrest] | [before [after Heq]]].
      * exists "", rest. by rewrite append_nil.
      * exists (String c before), after. rewrite append_cons. by rewrite Heq.
    + intros [before [after Heq]]. destruct before as [|d before].
      * left. by exists after.
      * right. rewrite append_cons in Heq. injection Heq as -> ->. eauto.
Qed.

Lemma StrContains_false (haystack needle : string) :
  StrContains haystack needle = false ↔ ¬ IsSubstring needle haystack.
Proof.
  rewrite <- StrContains_spec. destruct (StrContains haystack needle);
    split; congruence.
Qed.

Lemma StrContains_empty_needle (haystack : string) :
  StrContains haystack "" = true.
Proof. by destruct haystack. Qed.

(** ** [GetNodeName] *)

Lemma GetNodeName_no_match (names : list string) (marker : string) :
  (∀ n, n ∈ names → ¬ IsSubstring marker n) →
  GetNodeName names marker = "".
Proof.
  induction names as [|n names IH]; intros Hnone; simpl; [done |].
  assert (StrContains n marker = false) as ->.
  { apply StrContains_false, Hnone. left. }
  apply IH. intros x Hx. apply Hnone. by right.
Qed.

Lemma GetNodeName_first (before : list string) (n : string)
    (after : list string) (marker : string) :
  (∀ x, x ∈ before → ¬ IsSubstring marker x) →
  IsSubstring marker n →
  GetNodeName (before ++ n :: after) marker = n.
Proof.
  induction before as [|b before IH]; intros Hnone Hn; simpl.
  - apply StrContains_spec in Hn. by rewrite Hn.
  - assert (StrContains b marker = false) as ->.
    { apply StrContains_false, Hnone. left. }
    apply IH; [| done]. intros x Hx. apply Hnone. by right.
Qed.

(** Whatever it returns is either the empty string or one of the
    names, and then one that contains the marker. *)
Lemma GetNodeName_cases (names : list string) (marker : string) :
  GetNodeName names marker = ""
  ∨ (GetNodeName names marker ∈ names
     ∧ IsSubstring marker (GetNodeName names marker)).
Proof.
  induction names as [|n names IH]; simpl; [by left |].
  destruct (StrContains n marker) eqn:Hc.
  - right. split; [left | by apply StrContains_spec].
  - destruct IH as [IH | [IH1 IH2]]; [by left |].
    right. split; [by right | done].
Qed.

(** ** [FindFilePrefixTensorName] *)

Lemma c_find_not_end_spec (c : list string) (value : string) :
  c_find_not_end c value = true ↔ value ∈ c.
Proof.
  unfold c_find_not_end. rewrite existsb_exists. split.
  - intros [x [Hx Heq]]. apply String.eqb_eq in Heq. subst.
    by apply list_elem_of_In.
  - intros Hin. exists value.
    split; [by apply list_elem_of_In | apply String.eqb_refl].
Qed.

Lemma is_file_prefix_arg_spec (node_def : NodeDef) :
  is_file_prefix_arg node_def = true ↔ IsFilePrefixArg node_def.
Proof.
  unfold is_file_prefix_arg, IsFilePrefixArg, kArgOp,
    kTfSavedModelIndexPathAttr, kTfFilePrefix.
  rewrite andb_true_iff, String.eqb_eq.
  destruct (attr node_def !! "tf_saved_model.index_path") as [a|].
  - rewrite c_find_not_end_spec. split.
    + intros [Hop Hin]. split; [done |].
      destruct a; simpl in Hin; try by apply elem_of_nil in Hin.
      eauto.
    + intros [Hop [lv [[= ->] Hin]]]. done.
  - split; [intros [_ ?]; done | intros [_ [lv [? _]]]; done].
Qed.

Lemma is_file_prefix_arg_false (node_def : NodeDef) :
  is_file_prefix_arg node_def = false ↔ ¬ IsFilePrefixArg node_def.
Proof.
  rewrite <- is_file_prefix_arg_spec.
  destruct (is_file_prefix_arg node_def); split; congruence.
Qed.

Lemma FindFilePrefixTensorName_nodes_no_match (nodes : list NodeDef) :
  (∀ x, x ∈ nodes → ¬ IsFilePrefixArg x) →
  FindFilePrefixTensorName_nodes nodes = "".
Proof.
  induction nodes as [|nd nodes IH]; intros Hnone; simpl; [done |].
  assert (is_file_prefix_arg nd = false) as ->.
  { apply is_file_prefix_arg_false, Hnone. left. }
  apply IH. intros x Hx. apply Hnone. by right.
Qed.

Lemma FindFilePrefixTensorName_nodes_first
    (before : list NodeDef) (nd : NodeDef) (after : list NodeDef) :
  (∀ x, x ∈ before → ¬ IsFilePrefixArg x) →
  IsFilePrefixArg nd →
  FindFilePrefixTensorName_nodes (before ++ nd :: after) = name nd +:+ ":0".
Proof.
  induction before as [|b before IH]; intros Hnone Hnd; simpl.
  - apply is_file_prefix_arg_spec in Hnd. by rewrite Hnd.
  - assert (is_file_prefix_arg b = false) as ->.
    { apply is_file_prefix_arg_false, Hnone. left. }
    apply IH; [| done]. intros x Hx. apply Hnone. by right.
Qed.

(** The result is empty exactly when no node matches; otherwise the
    list splits at the first matching node. *)
Lemma FindFilePrefixTensorName_nodes_cases (nodes : list NodeDef) :
  ((∀ x, x ∈ nodes → ¬ IsFilePrefixArg x)
   ∧ FindFilePrefixTensorName_nodes nodes = "")
  ∨ (∃ before nd after,
       nodes = before ++ nd :: after
       ∧ (∀ x, x ∈ before → ¬ IsFilePrefixArg x)
       ∧ IsFilePrefixArg nd
       ∧ FindFilePrefixTensorName_nodes nodes = name nd +:+ ":0").
Proof.
  induction nodes as [|nd nodes IH]; simpl.
  - left. split; [| done]. intros x Hx. by apply elem_of_nil in Hx.
  - destruct (is_file_prefix_arg nd) eqn:Hnd.
    + right. exists [], nd, nodes. split; [done |]. split.
      * intros x Hx. by apply elem_of_nil in Hx.
      * split; [by apply is_file_prefix_arg_spec | done].
    + apply is_file_prefix_arg_false in Hnd.
      destruct IH as [[Hnone Hres] | (before & n & after & -> & Hb & Hn & Hres)].
      * left. split; [| done]. intros x Hx.
        apply elem_of_cons in Hx as [-> | Hx]; [done | by apply Hnone].
      * right. exists (nd :: before), n, after. split; [done |]. split.
        -- intros x Hx.
           apply elem_of_cons in Hx as [-> | Hx]; [done | by apply Hb].
        -- done.
Qed.

Lemma FindFilePrefixTensorName_empty_or_suffix (graph : GraphDef) :
  FindFilePrefixTensorName graph = ""
  ∨ ∃ nd, nd ∈ node graph ∧ IsFilePrefixArg nd
          ∧ FindFilePrefixTensorName graph = name nd +:+ ":0".
Proof.
  unfold FindFilePrefixTensorName.
  destruct (FindFilePrefixTensorName_nodes_cases (node graph))
    as [[_ Hres] | (before & nd & after & Hsplit & _ & Hnd & Hres)].
  - by left.
  - right. exists nd. split; [| done].
    rewrite Hsplit. apply elem_of_app. right. left.
Qed.

(** ** Claims about [GetNodeName] *)

(** C4: [GetNodeName] returns the first name, in list order, that
    contains the marker as an exact (bytewise, hence case-sensitive)
    substring, whatever follows it in the list, and the empty string when
    no name contains the marker.  On ["Restore_1"; "tf_quant__save_op";
    "Unrelated"] it returns "Restore_1" for the marker "Restore" and
    "tf_quant__save_op" for the marker "save_op". *)
Theorem GetNodeName_first_match (names : list string) (marker : string) :
  (∀ before n after,
      names = before ++ n :: after →
      (∀ x, x ∈ before → ¬ IsSubstring marker x) →
      IsSubstring marker n →
      GetNodeName names marker = n)
  ∧ ((∀ n, n ∈ names → ¬ IsSubstring marker n) →
     GetNodeName names marker = "")
  ∧ GetNodeName ["Restore_1"; "tf_quant__save_op"; "Unrelated"] "Restore"
    = "Restore_1"
  ∧ GetNodeName ["Restore_1"; "tf_quant__save_op"; "Unrelated"] "save_op"
    = "tf_quant__save_op".
Proof.
  split; [| split; [| split; reflexivity]].
  - intros before n after -> Hnone Hn. by apply GetNodeName_first.
  - apply GetNodeName_no_match.
Qed.

(** The lower-case name is skipped, and of the two names that contain
    the marker the earlier one is returned; with no match at all the
    result is empty. *)
Lemma GetNodeName_first_match_witness :
  GetNodeName ["restore_1"; "Restore_1"; "Restore_2"] "Restore" = "Restore_1"
  ∧ GetNodeName ["Unrelated"; "restore_1"] "Restore" = "".
Proof.
  split.
  - apply (proj1 (GetNodeName_first_match
                    ["restore_1"; "Restore_1"; "Restore_2"] "Restore")
             ["restore_1"] "Restore_1" ["Restore_2"]).
    + reflexivity.
    + intros x Hx. apply StrContains_false.
      apply list_elem_of_singleton in Hx. subst x. reflexivity.
    + apply StrContains_spec. reflexivity.
  - apply (proj1 (proj2 (GetNodeName_first_match
                           ["Unrelated"; "restore_1"] "Restore"))).
    intros n Hn. apply StrContains_false.
    apply elem_of_cons in Hn as [-> | Hn]; [reflexivity |].
    apply list_elem_of_singleton in Hn. subst n. reflexivity.
Defined.

(** C8: with the empty string as the marker [GetNodeName] returns the
    first element of a non-empty list; on the empty list it returns the
    empty string for any marker. *)
Theorem GetNodeName_empty_marker (n : string) (rest : list string)
    (marker : string) :
  GetNodeName (n :: rest) "" = n ∧ GetNodeName [] marker = "".
Proof.
  split; [| reflexivity].
  simpl. by rewrite StrContains_empty_needle.
Qed.

(** ** Claims about [FindFilePrefixTensorName] *)

(** C5: [FindFilePrefixTensorName] returns the name of the first node
    that is an argument op carrying "__tf_file_prefix" in its index-path
    string list, with ":0" appended; without such a node it returns the
    empty string, whatever else the index paths hold.  A graph with the
    single argument node "file_prefix" carrying the marker gives
    "file_prefix:0". *)
Theorem FindFilePrefixTensorName_first_match (graph : GraphDef) :
  (∀ before nd after,
      node graph = before ++ nd :: after →
      (∀ x, x ∈ before → ¬ IsFilePrefixArg x) →
      IsFilePrefixArg nd →
      FindFilePrefixTensorName graph = name nd +:+ ":0")
  ∧ ((∀ x, x ∈ node graph → ¬ IsFilePrefixArg x) →
     FindFilePrefixTensorName graph = "")
  ∧ FindFilePrefixTensorName
      {| node :=
           [ {| name := "file_prefix"; op := "_Arg"; input := [];
                device := "";
                attr := {[ "tf_saved_model.index_path" :=
                             value_list {| ListValue.s := ["__tf_file_prefix"];
                                           ListValue.i := [];
                                           ListValue.b := [] |} ]} |} ] |}
    = "file_prefix:0".
Proof.
  unfold FindFilePrefixTensorName.
  split; [| split; [| by vm_compute]].
  - intros before nd after -> Hnone Hnd.
    by apply FindFilePrefixTensorName_nodes_first.
  - apply FindFilePrefixTensorName_nodes_no_match.
Qed.

(** Splits a membership hypothesis over a literal list into one goal
    per element. *)
Ltac each_element H :=
  repeat (apply elem_of_cons in H as [-> | H]);
  [.. | by apply elem_of_nil in H].

Ltac not_file_prefix_arg := apply is_file_prefix_arg_false; by vm_compute.
Ltac file_prefix_arg := apply is_file_prefix_arg_spec; by vm_compute.

(** A constant and an argument with another index path are passed
    over; a graph whose only argument has other index paths yields the
    empty string. *)
Lemma FindFilePrefixTensorName_first_match_witness :
  FindFilePrefixTensorName
    {| node := [const_node "c"; arg_node "x" ["other"];
                arg_node "file_prefix" ["a"; "__tf_file_prefix"];
                const_node "d"] |}
  = "file_prefix:0"
  ∧ FindFilePrefixTensorName
      {| node := [arg_node "x" ["other"; "paths"]; const_node "c"] |}
    = "".
Proof.
  split.
  - apply (proj1 (FindFilePrefixTensorName_first_match
                    {| node := [const_node "c"; arg_node "x" ["other"];
                                arg_node "file_prefix" ["a"; "__tf_file_prefix"];
                                const_node "d"] |})
             [const_node "c"; arg_node "x" ["other"]]
             (arg_node "file_prefix" ["a"; "__tf_file_prefix"])
             [const_node "d"]).
    + reflexivity.
    + intros x Hx. each_element Hx; not_file_prefix_arg.
    + file_prefix_arg.
  - apply (proj1 (proj2 (FindFilePrefixTensorName_first_match
                           {| node := [arg_node "x" ["other"; "paths"];
                                       const_node "c"] |}))).
    intros x Hx. simpl in Hx. each_element Hx; not_file_prefix_arg.
Defined.

(** C9: when two (or more) nodes of the graph are argument ops carrying
    "__tf_file_prefix" in their index path, [FindFilePrefixTensorName]
    still returns a plain string: the name, with ":0" appended, of the
    first such node in the order of the node list. *)
Theorem FindFilePrefixTensorName_duplicates (graph : GraphDef)
    (i j : nat) (n1 n2 : NodeDef) :
  i < j →
  node graph !! i = Some n1 →
  node graph !! j = Some n2 →
  IsFilePrefixArg n1 →
  IsFilePrefixArg n2 →
  ∃ k nd,
    k ≤ i
    ∧ node graph !! k = Some nd
    ∧ IsFilePrefixArg nd
    ∧ (∀ k' x, k' < k → node graph !! k' = Some x → ¬ IsFilePrefixArg x)
    ∧ FindFilePrefixTensorName graph = name nd +:+ ":0".
Proof.
  intros _ Hi _ H1 _. unfold FindFilePrefixTensorName.
  destruct (FindFilePrefixTensorName_nodes_cases (node graph))
    as [[Hnone _] | (before & nd & after & Hsplit & Hb & Hnd & Hres)].
  - exfalso. apply (Hnone n1); [| done].
    apply list_elem_of_lookup. eauto.
  - assert (∀ k' x, k' < length before →
                    node graph !! k' = Some x → ¬ IsFilePrefixArg x) as Hlt.
    { intros k' x Hk' Hx. apply Hb. rewrite Hsplit in Hx.
      rewrite lookup_app_l in Hx by done.
      apply list_elem_of_lookup. eauto. }
    exists (length before), nd.
    split; [| split; [| split; [done | split; [done |]]]].
    + destruct (decide (length before ≤ i)) as [|Hgt]; [done |].
      exfalso. apply (Hlt i n1); [lia | done | done].
    + rewrite Hsplit. by rewrite list_lookup_middle.
    + exact Hres.
Qed.

Lemma FindFilePrefixTensorName_duplicates_witness :
  ∃ k nd,
    k ≤ 1
    ∧ [const_node "c"; arg_node "first" ["__tf_file_prefix"];
       arg_node "second" ["__tf_file_prefix"]] !! k = Some nd
    ∧ IsFilePrefixArg nd
    ∧ (∀ k' x, k' < k →
         [const_node "c"; arg_node "first" ["__tf_file_prefix"];
          arg_node "second" ["__tf_file_prefix"]] !! k' = Some x →
         ¬ IsFilePrefixArg x)
    ∧ FindFilePrefixTensorName
        {| node := [const_node "c"; arg_node "first" ["__tf_file_prefix"];
                    arg_node "second" ["__tf_file_prefix"]] |}
      = name nd +:+ ":0".
Proof.
  apply (FindFilePrefixTensorName_duplicates
           {| node := [const_node "c"; arg_node "first" ["__tf_file_prefix"];
                       arg_node "second" ["__tf_file_prefix"]] |}
           1 2 (arg_node "first" ["__tf_file_prefix"])
           (arg_node "second" ["__tf_file_prefix"])).
  - lia.
  - reflexivity.
  - reflexivity.
  - file_prefix_arg.
  - file_prefix_arg.
Defined.

(** ** Claims about [CreateSaverDef] *)

Lemma SaverDef_error_prefix_eq :
  SaverDef_error_prefix
  = "Failed to create SaverDef. Fields should be either all empty strings or all non-empty strings. Got fields: ".
Proof. reflexivity. Qed.

(** The three-way branch of [CreateSaverDef], with the two container
    predicates evaluated on the three fields. *)
Lemma CreateSaverDef_branches (restore_marker save_marker : string)
    (names : list string) (graph : GraphDef) :
  let f := FindFilePrefixTensorName graph in
  let r := GetNodeName names restore_marker in
  let s := GetNodeName names save_marker in
  CreateSaverDef restore_marker save_marker names graph
  = if empty f && empty r && empty s then OkValue None
    else if negb (empty f || empty r || empty s) then
      OkValue (Some {| filename_tensor_name := f;
                       save_tensor_name := s +:+ ":0";
                       restore_op_name := r;
                       max_to_keep := 0; sharded := false;
                       version := V2 |})
    else
      NotOk {| code := kInternal;
               message := SaverDef_error_prefix
                          +:+ f +:+ "," +:+ r +:+ "," +:+ s |}.
Proof.
  unfold CreateSaverDef, c_all_of, c_none_of, StrCat, InternalError. simpl.
  rewrite andb_true_r, orb_false_r, andb_assoc, orb_assoc. reflexivity.
Qed.

(** C1: when exactly one or exactly two of the three signals (file
    prefix tensor name, restore op name, save node name) are empty
    strings, [CreateSaverDef] returns an internal error, not a value,
    and the message ends with the three raw fields joined by commas. *)
Theorem CreateSaverDef_partial_is_error (restore_marker save_marker : string)
    (names : list string) (graph : GraphDef) :
  let f := FindFilePrefixTensorName graph in
  let r := GetNodeName names restore_marker in
  let s := GetNodeName names save_marker in
  count_empty [f; r; s] = 1 ∨ count_empty [f; r; s] = 2 →
  CreateSaverDef restore_marker save_marker names graph
  = NotOk {| code := kInternal;
             message :=
               "Failed to create SaverDef. Fields should be either all empty strings or all non-empty strings. Got fields: "
               +:+ f +:+ "," +:+ r +:+ "," +:+ s |}.
Proof.
  intros f r s Hcount.
  rewrite CreateSaverDef_branches, SaverDef_error_prefix_eq.
  fold f r s. revert Hcount. generalize f r s. clear.
  intros [|c1 f] [|c2 r] [|c3 s] Hcount; try reflexivity;
    exfalso; vm_compute in Hcount; destruct Hcount; discriminate.
Qed.

Lemma CreateSaverDef_partial_is_error_witness :
  CreateSaverDef "restore_op" "tf_quant__save_op"
    ["restore_op_0"] {| node := [const_node "c"] |}
  = NotOk {| code := kInternal;
             message :=
               "Failed to create SaverDef. Fields should be either all empty strings or all non-empty strings. Got fields: ,restore_op_0," |}.
Proof.
  apply (CreateSaverDef_partial_is_error "restore_op" "tf_quant__save_op"
           ["restore_op_0"] {| node := [const_node "c"] |}).
  right. reflexivity.
Defined.

(** C2: when all three signals are non-empty, [CreateSaverDef] returns
    a descriptor of version [V2] whose filename tensor name is the
    locator's result, whose restore op name is the resolver's result for
    the restore marker, and whose save tensor name is the resolver's
    result for the save marker with ":0" appended. *)
Theorem CreateSaverDef_all_present (restore_marker save_marker : string)
    (names : list string) (graph : GraphDef) :
  FindFilePrefixTensorName graph ≠ "" →
  GetNodeName names restore_marker ≠ "" →
  GetNodeName names save_marker ≠ "" →
  CreateSaverDef restore_marker save_marker names graph
  = OkValue (Some {| filename_tensor_name := FindFilePrefixTensorName graph;
                     save_tensor_name :=
                       GetNodeName names save_marker +:+ ":0";
                     restore_op_name := GetNodeName names restore_marker;
                     max_to_keep := 0; sharded := false;
                     version := V2 |}).
Proof.
  intros Hf Hr Hs. rewrite CreateSaverDef_branches. simpl.
  apply empty_false in Hf, Hr, Hs. by rewrite Hf, Hr, Hs.
Qed.

Lemma CreateSaverDef_all_present_witness :
  CreateSaverDef "restore_op" "tf_quant__save_op"
    ["restore_op_0"; "tf_quant__save_op"; "Unrelated"]
    {| node := [const_node "c"; arg_node "file_prefix" ["__tf_file_prefix"]] |}
  = OkValue (Some {| filename_tensor_name := "file_prefix:0";
                     save_tensor_name := "tf_quant__save_op:0";
                     restore_op_name := "restore_op_0";
                     max_to_keep := 0; sharded := false;
                     version := V2 |}).
Proof.
  apply (CreateSaverDef_all_present "restore_op" "tf_quant__save_op"
           ["restore_op_0"; "tf_quant__save_op"; "Unrelated"]
           {| node := [const_node "c";
                       arg_node "file_prefix" ["__tf_file_prefix"]] |});
    by vm_compute.
Defined.

(** C3: when no node of the graph is a file-prefix argument and no
    control-output name contains the restore marker or the save marker,
    all three signals are empty and [CreateSaverDef] returns the value
    "no descriptor", not an error. *)
Theorem CreateSaverDef_all_absent (restore_marker save_marker : string)
    (names : list string) (graph : GraphDef) :
  (∀ nd, nd ∈ node graph → ¬ IsFilePrefixArg nd) →
  (∀ n, n ∈ names → ¬ IsSubstring restore_marker n) →
  (∀ n, n ∈ names → ¬ IsSubstring save_marker n) →
  FindFilePrefixTensorName graph = ""
  ∧ GetNodeName names restore_marker = ""
  ∧ GetNodeName names save_marker = ""
  ∧ CreateSaverDef restore_marker save_marker names graph = OkValue None.
Proof.
  intros Hg Hr Hs.
  assert (FindFilePrefixTensorName graph = "") as Hf'
    by by apply FindFilePrefixTensorName_nodes_no_match.
  assert (GetNodeName names restore_marker = "") as Hr'
    by by apply GetNodeName_no_match.
  assert (GetNodeName names save_marker = "") as Hs'
    by by apply GetNodeName_no_match.
  repeat split; [done | done | done |].
  rewrite CreateSaverDef_branches. simpl. by rewrite Hf', Hr', Hs'.
Qed.

Lemma CreateSaverDef_all_absent_witness :
  CreateSaverDef "restore_op" "tf_quant__save_op"
    ["Unrelated"] {| node := [const_node "c"; arg_node "x" ["other"]] |}
  = OkValue None.
Proof.
  apply (CreateSaverDef_all_absent "restore_op" "tf_quant__save_op"
           ["Unrelated"]
           {| node := [const_node "c"; arg_node "x" ["other"]] |}).
  - intros nd Hnd. simpl in Hnd. each_element Hnd; not_file_prefix_arg.
  - intros n Hn. each_element Hn. by apply StrContains_false.
  - intros n Hn. each_element Hn. by apply StrContains_false.
Defined.

(** C10: a descriptor returned by [CreateSaverDef] has a filename tensor
    name and a save tensor name that both end in ":0", and a restore op
    name that is one of the given control-output names. *)
Theorem CreateSaverDef_descriptor_shape (restore_marker save_marker : string)
    (names : list string) (graph : GraphDef) (sd : SaverDef) :
  CreateSaverDef restore_marker save_marker names graph = OkValue (Some sd) →
  EndsWith (filename_tensor_name sd) ":0"
  ∧ EndsWith (save_tensor_name sd) ":0"
  ∧ restore_op_name sd ∈ names.
Proof.
  rewrite CreateSaverDef_branches. simpl.
  destruct (empty (FindFilePrefixTensorName graph)) eqn:Hf;
    destruct (empty (GetNodeName names restore_marker)) eqn:Hr;
    destruct (empty (GetNodeName names save_marker)) eqn:Hs;
    simpl; intros Heq; try discriminate.
  injection Heq as <-. simpl.
  apply empty_false in Hf, Hr. split; [| split].
  - destruct (FindFilePrefixTensorName_empty_or_suffix graph)
      as [Hempty | (nd & _ & _ & ->)]; [done |].
    by exists (name nd).
  - by exists (GetNodeName names save_marker).
  - destruct (GetNodeName_cases names restore_marker) as [Hempty | [Hin _]];
      done.
Qed.

Lemma CreateSaverDef_descriptor_shape_witness :
  EndsWith "file_prefix:0" ":0"
  ∧ EndsWith "tf_quant__save_op:0" ":0"
  ∧ "restore_op_0" ∈ ["restore_op_0"; "tf_quant__save_op"; "Unrelated"].
Proof.
  apply (CreateSaverDef_descriptor_shape "restore_op" "tf_quant__save_op"
           ["restore_op_0"; "tf_quant__save_op"; "Unrelated"]
           {| node := [const_node "c";
                       arg_node "file_prefix" ["__tf_file_prefix"]] |}
           {| filename_tensor_name := "file_prefix:0";
              save_tensor_name := "tf_quant__save_op:0";
              restore_op_name := "restore_op_0";
              max_to_keep := 0; sharded := false; version := V2 |}).
  by vm_compute.
Defined.

(** ** Claims about [AddExportPasses] *)

(** C6: [AddExportPasses] appends a fixed sequence of stages.  With the
    flag set the first stage added is the duplication of shape
    determining constants and the last is the stripping of the no-inline
    attribute; with the flag unset the duplication stage is left out and
    the other eight stages are the same, in the same order, ending with
    initializer merge, save merge, duplicate resource merge and
    attribute stripping. *)
Theorem AddExportPasses_order (pm : PassManager) :
  let common :=
    [ OnModule InsertMainFunctionPass;
      OnModule LiftHashTableOpsAsArgsPass;
      Nested FuncOp FunctionalToExecutorDialectConversionPass;
      OnModule BreakUpIslandsPass;
      OnModule MergeInitializerFunctionOpsToMainPass;
      OnModule MergeSaveFunctionOpsToMainPass;
      Nested FuncOp MergeDuplicateResourceOpsPass;
      OnModule StripNoinlineAttributePass ] in
  AddExportPasses pm true
  = pm ++ Nested FuncOp DuplicateShapeDeterminingConstantsPass :: common
  ∧ AddExportPasses pm false = pm ++ common
  ∧ (∀ st, st ∈ common →
       stage_pass st ≠ DuplicateShapeDeterminingConstantsPass)
  ∧ head (AddExportPasses [] true)
    = Some (Nested FuncOp DuplicateShapeDeterminingConstantsPass)
  ∧ last (AddExportPasses pm true) = Some (OnModule StripNoinlineAttributePass)
  ∧ last (AddExportPasses pm false) = Some (OnModule StripNoinlineAttributePass)
  ∧ ∃ earlier,
      common = earlier ++ [ OnModule MergeInitializerFunctionOpsToMainPass;
                            OnModule MergeSaveFunctionOpsToMainPass;
                            Nested FuncOp MergeDuplicateResourceOpsPass;
                            OnModule StripNoinlineAttributePass ].
Proof.
  intros common.
  split; [| split; [| split; [| split; [| split; [| split]]]]].
  - unfold AddExportPasses, addPass, addNestedPass.
    by rewrite <- !app_assoc.
  - unfold AddExportPasses, addPass, addNestedPass.
    by rewrite <- !app_assoc.
  - intros st Hst. unfold common in Hst. each_element Hst; discriminate.
  - reflexivity.
  - unfold AddExportPasses, addPass at 1. apply last_snoc.
  - unfold AddExportPasses, addPass at 1. apply last_snoc.
  - by exists (take 4 common).
Qed.

(** ** Claims about [CreateExportedModel] *)

Lemma foldl_RepeatedPtrField_Add {A} (field xs : list A) :
  foldl RepeatedPtrField_Add field xs = field ++ xs.
Proof.
  revert field. induction xs as [|x xs IH]; intros field; simpl.
  - by rewrite app_nil_r.
  - rewrite IH. unfold RepeatedPtrField_Add. by rewrite <- app_assoc.
Qed.

(** Every argument ends up in the field of its name, and the caller's
    graph object is left holding its value. *)
Lemma CreateExportedModel_result (g : GraphDef) (init dir : string)
    (sd : option SaverDef) (aliases : gmap string string)
    (assets : list AssetFileDef) :
  CreateExportedModel g init dir sd aliases assets
  = ({| graph_def := g; init_node_name := init; checkpoint_dir := dir;
        function_aliases := aliases; asset_file_defs := assets;
        saver_def := sd |},
     Holds g).
Proof.
  unfold CreateExportedModel, copy_assign, Map_insert_range. simpl.
  rewrite foldl_RepeatedPtrField_Add, (left_id_L ∅ (∪)). simpl.
  by destruct sd.
Qed.

(** C7 (fails on the code): [CreateExportedModel] assigns the graph to
    the exported model by copy.  After the call on [sample_graph] the
    exported model holds the graph and the caller's object still holds
    the same graph, which is not the state a move assignment leaves. *)
Theorem CreateExportedModel_copies_graph :
  graph_def (fst (CreateExportedModel sample_graph "init" "/tmp/ckpt"
                    None ∅ []))
  = sample_graph
  ∧ snd (CreateExportedModel sample_graph "init" "/tmp/ckpt" None ∅ [])
    = Holds sample_graph
  ∧ snd (CreateExportedModel sample_graph "init" "/tmp/ckpt" None ∅ [])
    ≠ snd (move_assign sample_graph).
Proof. rewrite CreateExportedModel_result. simpl. done. Qed.

(** * Further properties of the same functions *)

(** ** More on strings *)

Lemma append_assoc (a b c : string) : (a +:+ b) +:+ c = a +:+ (b +:+ c).
Proof.
  induction a as [|ch a IH]; [done |].
  rewrite !append_cons. by f_equal.
Qed.

Lemma append_eq_empty (a b : string) : a +:+ b = "" → a = "" ∧ b = "".
Proof. destruct a; [by rewrite append_nil | by rewrite append_cons]. Qed.

Lemma IsSubstring_of_empty (needle : string) :
  IsSubstring needle "" → needle = "".
Proof.
  intros [before [after Heq]]. symmetry in Heq.
  apply append_eq_empty in Heq as [_ Heq].
  by apply append_eq_empty in Heq as [? _].
Qed.

Lemma IsSubstring_trans (a b c : string) :
  IsSubstring a b → IsSubstring b c → IsSubstring a c.
Proof.
  intros [p1 [s1 ->]] [p2 [s2 ->]].
  exists (p2 +:+ p1), (s1 +:+ s2). by rewrite !append_assoc.
Qed.

(** ** More on [GetNodeName] *)

(** Either no name contains the marker and the result is empty, or the
    list splits at the first name that contains it and that name is the
    result. *)
Lemma GetNodeName_split_cases (names : list string) (marker : string) :
  ((∀ n, n ∈ names → ¬ IsSubstring marker n)
   ∧ GetNodeName names marker = "")
  ∨ (∃ before n after,
       names = before ++ n :: after
       ∧ (∀ x, x ∈ before → ¬ IsSubstring marker x)
       ∧ IsSubstring marker n
       ∧ GetNodeName names marker = n).
Proof.
  induction names as [|n names IH]; simpl.
  - left. split; [| done]. intros x Hx. by apply elem_of_nil in Hx.
  - destruct (StrContains n marker) eqn:Hn.
    + right. exists [], n, names. split; [done |]. split.
      * intros x Hx. by apply elem_of_nil in Hx.
      * split; [by apply StrContains_spec | done].
    + apply StrContains_false in Hn.
      destruct IH as [[Hnone Hres] | (before & m & after & -> & Hb & Hm & Hres)].
      * left. split; [| done]. intros x Hx.
        apply elem_of_cons in Hx as [-> | Hx]; [done | by apply Hnone].
      * right. exists (n :: before), m, after. split; [done |]. split.
        -- intros x Hx.
           apply elem_of_cons in Hx as [-> | Hx]; [done | by apply Hb].
        -- done.
Qed.

(** X1: for a non-empty marker, [GetNodeName] returns the empty string
    exactly when no name of the list contains the marker: an empty
    result then always means "not found". *)
Theorem GetNodeName_empty_iff_no_match (names : list string)
    (marker : string) :
  marker ≠ "" →
  GetNodeName names marker = "" ↔ ∀ n, n ∈ names → ¬ IsSubstring marker n.
Proof.
  intros Hmarker. split; [| apply GetNodeName_no_match].
  destruct (GetNodeName_split_cases names marker)
    as [[Hnone _] | (before & n & after & _ & _ & Hn & ->)]; [done |].
  intros ->. by apply IsSubstring_of_empty in Hn.
Qed.

Lemma GetNodeName_empty_iff_no_match_witness :
  GetNodeName ["Unrelated"; "restore_1"] "Restore" = ""
  ↔ ∀ n, n ∈ ["Unrelated"; "restore_1"] → ¬ IsSubstring "Restore" n.
Proof.
  apply (GetNodeName_empty_iff_no_match ["Unrelated"; "restore_1"] "Restore").
  discriminate.
Defined.

(** X2: a non-empty result of [GetNodeName] is a name of the list that
    contains the marker, and no name before it in the list contains the
    marker. *)
Theorem GetNodeName_nonempty_result (names : list string)
    (marker n : string) :
  GetNodeName names marker = n →
  n ≠ "" →
  ∃ before after,
    names = before ++ n :: after
    ∧ (∀ x, x ∈ before → ¬ IsSubstring marker x)
    ∧ IsSubstring marker n.
Proof.
  intros Hres Hn.
  destruct (GetNodeName_split_cases names marker)
    as [[_ Hempty] | (before & m & after & Hsplit & Hb & Hm & Hm')].
  - congruence.
  - assert (m = n) as -> by congruence. eauto.
Qed.

Lemma GetNodeName_nonempty_result_witness :
  ∃ before after,
    ["Unrelated"; "Restore_1"; "Restore_2"] = before ++ "Restore_1" :: after
    ∧ (∀ x, x ∈ before → ¬ IsSubstring "Restore" x)
    ∧ IsSubstring "Restore" "Restore_1".
Proof.
  apply (GetNodeName_nonempty_result
           ["Unrelated"; "Restore_1"; "Restore_2"] "Restore" "Restore_1").
  - reflexivity.
  - discriminate.
Defined.

(** X3: over a concatenation, [GetNodeName] answers from the first list
    when one of its names contains the marker, and from the second list
    otherwise. *)
Theorem GetNodeName_app (names1 names2 : list string) (marker : string) :
  ((∃ n, n ∈ names1 ∧ IsSubstring marker n) →
   GetNodeName (names1 ++ names2) marker = GetNodeName names1 marker)
  ∧ ((∀ n, n ∈ names1 → ¬ IsSubstring marker n) →
     GetNodeName (names1 ++ names2) marker = GetNodeName names2 marker).
Proof.
  split.
  - intros [n [Hin Hn]].
    destruct (GetNodeName_split_cases names1 marker)
      as [[Hnone _] | (before & m & after & -> & Hb & Hm & ->)].
    + by destruct (Hnone n Hin).
    + rewrite <- app_assoc. simpl. by apply GetNodeName_first.
  - induction names1 as [|n names1 IH]; intros Hnone; simpl; [done |].
    assert (StrContains n marker = false) as ->.
    { apply StrContains_false, Hnone. left. }
    apply IH. intros x Hx. apply Hnone. by right.
Qed.

Lemma GetNodeName_app_witness :
  GetNodeName (["a"; "Restore_1"] ++ ["Restore_2"]) "Restore"
  = GetNodeName ["a"; "Restore_1"] "Restore"
  ∧ GetNodeName (["a"; "b"] ++ ["c"; "Restore_2"]) "Restore"
    = GetNodeName ["c"; "Restore_2"] "Restore".
Proof.
  split.
  - apply (proj1 (GetNodeName_app ["a"; "Restore_1"] ["Restore_2"] "Restore")).
    exists "Restore_1". split; [right; left | by apply StrContains_spec].
  - apply (proj2 (GetNodeName_app ["a"; "b"] ["c"; "Restore_2"] "Restore")).
    intros n Hn. each_element Hn; by apply StrContains_false.
Defined.

(** X4: a marker that occurs inside another marker finds a name
    whenever the longer marker does: if the non-empty [short] is a
    substring of [long] and [GetNodeName] finds a non-empty name for
    [long], it finds a non-empty name for [short]. *)
Theorem GetNodeName_shorter_marker (names : list string)
    (short long : string) :
  short ≠ "" →
  IsSubstring short long →
  GetNodeName names long ≠ "" →
  GetNodeName names short ≠ "".
Proof.
  intros Hshort Hsub Hlong.
  destruct (GetNodeName_split_cases names long)
    as [[_ Hempty] | (before & n & after & Hsplit & _ & Hn & _)]; [done |].
  destruct (GetNodeName_split_cases names short)
    as [[Hnone _] | (before' & m & after' & _ & _ & Hm & ->)].
  - exfalso. apply (Hnone n).
    + rewrite Hsplit. apply elem_of_app. right. left.
    + by apply IsSubstring_trans with long.
  - intros ->. by apply IsSubstring_of_empty in Hm.
Qed.

Lemma GetNodeName_shorter_marker_witness :
  IsSubstring "save_op" "tf_quant__save_op"
  ∧ GetNodeName ["Unrelated"; "tf_quant__save_op"] "save_op" ≠ "".
Proof.
  assert (IsSubstring "save_op" "tf_quant__save_op") as Hsub
    by by apply StrContains_spec.
  split; [exact Hsub |].
  apply (GetNodeName_shorter_marker ["Unrelated"; "tf_quant__save_op"]
           "save_op" "tf_quant__save_op").
  - discriminate.
  - exact Hsub.
  - discriminate.
Defined.

(** ** More on [FindFilePrefixTensorName] *)

Lemma append_suffix_not_empty (a : string) (ch : Ascii.ascii) (b : string) :
  a +:+ String ch b ≠ "".
Proof. intros Heq. by apply append_eq_empty in Heq as [_ ?]. Qed.

Lemma is_file_prefix_arg_ext (a b : NodeDef) :
  op a = op b →
  attr a !! "tf_saved_model.index_path" = attr b !! "tf_saved_model.index_path" →
  is_file_prefix_arg a = is_file_prefix_arg b.
Proof.
  intros Hop Hattr.
  unfold is_file_prefix_arg, kTfSavedModelIndexPathAttr.
  by rewrite Hop, Hattr.
Qed.

(** X5: [FindFilePrefixTensorName] returns the empty string exactly
    when no node of the graph is a file-prefix argument; a match never
    yields an empty result, even for a node with an empty name. *)
Theorem FindFilePrefixTensorName_empty_iff_no_match (graph : GraphDef) :
  FindFilePrefixTensorName graph = ""
  ↔ ∀ nd, nd ∈ node graph → ¬ IsFilePrefixArg nd.
Proof.
  unfold FindFilePrefixTensorName.
  split; [| apply FindFilePrefixTensorName_nodes_no_match].
  destruct (FindFilePrefixTensorName_nodes_cases (node graph))
    as [[Hnone _] | (before & nd & after & _ & _ & _ & ->)]; [done |].
  intros Hempty. by apply append_suffix_not_empty in Hempty.
Qed.

(** X6: the result of [FindFilePrefixTensorName] depends only on the
    name, the op and the index-path attribute of each node, in order:
    inputs, devices and all other attributes are ignored. *)
Theorem FindFilePrefixTensorName_frame (graph1 graph2 : GraphDef) :
  Forall2 (λ a b, name a = name b ∧ op a = op b
                  ∧ attr a !! "tf_saved_model.index_path"
                    = attr b !! "tf_saved_model.index_path")
          (node graph1) (node graph2) →
  FindFilePrefixTensorName graph1 = FindFilePrefixTensorName graph2.
Proof.
  unfold FindFilePrefixTensorName.
  induction 1 as [|a b nodes1 nodes2 (Hname & Hop & Hattr) _ IH]; simpl;
    [done |].
  rewrite (is_file_prefix_arg_ext a b Hop Hattr), Hname, IH. done.
Qed.

Lemma FindFilePrefixTensorName_frame_witness :
  FindFilePrefixTensorName
    {| node := [ {| name := "file_prefix"; op := "_Arg";
                    input := ["^init"]; device := "/device:CPU:0";
                    attr := <["T" := value_other]>
                              (index_path_attr ["__tf_file_prefix"]) |} ] |}
  = FindFilePrefixTensorName
      {| node := [arg_node "file_prefix" ["__tf_file_prefix"]] |}.
Proof.
  apply (FindFilePrefixTensorName_frame
           {| node := [ {| name := "file_prefix"; op := "_Arg";
                           input := ["^init"]; device := "/device:CPU:0";
                           attr := <["T" := value_other]>
                                     (index_path_attr ["__tf_file_prefix"]) |} ] |}
           {| node := [arg_node "file_prefix" ["__tf_file_prefix"]] |}).
  simpl. constructor; [| constructor].
  split; [reflexivity | split; [reflexivity | by vm_compute]].
Defined.

(** X7: an index-path attribute that is not a list is read as an empty
    list: when no node carries a list-valued index-path attribute the
    result is the empty string, even if such an attribute is the scalar
    string "__tf_file_prefix". *)
Theorem FindFilePrefixTensorName_non_list_attr (graph : GraphDef) :
  (∀ nd lv, nd ∈ node graph →
     attr nd !! "tf_saved_model.index_path" ≠ Some (value_list lv)) →
  FindFilePrefixTensorName graph = "".
Proof.
  intros Hkind. apply FindFilePrefixTensorName_nodes_no_match.
  intros nd Hnd [_ [lv [Hattr _]]]. by apply (Hkind nd lv).
Qed.

Lemma FindFilePrefixTensorName_non_list_attr_witness :
  FindFilePrefixTensorName
    {| node := [ {| name := "file_prefix"; op := "_Arg"; input := [];
                    device := "";
                    attr := {[ "tf_saved_model.index_path" :=
                                 value_s "__tf_file_prefix" ]} |} ] |}
  = "".
Proof.
  apply (FindFilePrefixTensorName_non_list_attr
           {| node := [ {| name := "file_prefix"; op := "_Arg"; input := [];
                           device := "";
                           attr := {[ "tf_saved_model.index_path" :=
                                        value_s "__tf_file_prefix" ]} |} ] |}).
  intros nd lv Hnd. simpl in Hnd. each_element Hnd. by vm_compute.
Defined.

Lemma FindFilePrefixTensorName_empty_iff_no_match_witness :
  IsFilePrefixArg (arg_node "" ["__tf_file_prefix"])
  ∧ FindFilePrefixTensorName
      {| node := [arg_node "" ["__tf_file_prefix"]] |} ≠ "".
Proof.
  assert (IsFilePrefixArg (arg_node "" ["__tf_file_prefix"])) as Harg
    by file_prefix_arg.
  split; [exact Harg |]. intros Hempty.
  apply (proj1 (FindFilePrefixTensorName_empty_iff_no_match
                  {| node := [arg_node "" ["__tf_file_prefix"]] |})
           Hempty (arg_node "" ["__tf_file_prefix"])).
  - left.
  - exact Harg.
Defined.

(** ** More on [CreateSaverDef] *)

(** X8: the three outcomes of [CreateSaverDef] are decided by the three
    signals alone: no descriptor exactly when all are empty, a
    descriptor exactly when none is empty, an error exactly in the mixed
    cases, and every error has the internal code. *)
Theorem CreateSaverDef_classification (restore_marker save_marker : string)
    (names : list string) (graph : GraphDef) :
  let f := FindFilePrefixTensorName graph in
  let r := GetNodeName names restore_marker in
  let s := GetNodeName names save_marker in
  let result := CreateSaverDef restore_marker save_marker names graph in
  (result = OkValue None ↔ f = "" ∧ r = "" ∧ s = "")
  ∧ ((∃ sd, result = OkValue (Some sd)) ↔ f ≠ "" ∧ r ≠ "" ∧ s ≠ "")
  ∧ ((∃ st, result = NotOk st)
     ↔ ¬ (f = "" ∧ r = "" ∧ s = "") ∧ ¬ (f ≠ "" ∧ r ≠ "" ∧ s ≠ ""))
  ∧ (∀ st, result = NotOk st → code st = kInternal).
Proof.
  intros f r s result. unfold result.
  rewrite CreateSaverDef_branches. fold f r s. generalize f r s. clear.
  intros f r s. split; [| split; [| split]].
  - destruct f, r, s; simpl; (split; [done | intros (? & ? & ?); done]).
  - destruct f, r, s; simpl;
      (split; [intros [sd Hsd]; done | intros (? & ? & ?); by eauto]).
  - destruct f, r, s; simpl; split;
      try (intros [st Hst]; by split; intros (? & ? & ?));
      try (intros _; by eexists);
      intros [Hnot_empty Hnot_full]; exfalso;
      (by apply Hnot_empty) || (by apply Hnot_full).
  - destruct f, r, s; simpl; intros st Hst; try discriminate;
      by injection Hst as <-.
Qed.



(** X10: the restore op and the save node are not required to differ:
    when the first name that contains the restore marker is also the
    first that contains the save marker, and the graph has a file-prefix
    argument, the descriptor names that one node for both roles. *)
Theorem CreateSaverDef_shared_node (restore_marker save_marker : string)
    (before : list string) (n : string) (after : list string)
    (graph : GraphDef) :
  n ≠ "" →
  (∀ x, x ∈ before → ¬ IsSubstring restore_marker x) →
  (∀ x, x ∈ before → ¬ IsSubstring save_marker x) →
  IsSubstring restore_marker n →
  IsSubstring save_marker n →
  FindFilePrefixTensorName graph ≠ "" →
  CreateSaverDef restore_marker save_marker (before ++ n :: after) graph
  = OkValue (Some {| filename_tensor_name := FindFilePrefixTensorName graph;
                     save_tensor_name := n +:+ ":0";
                     restore_op_name := n;
                     max_to_keep := 0; sharded := false;
                     version := V2 |}).
Proof.
  intros Hn Hbr Hbs Hr Hs Hf.
  rewrite CreateSaverDef_branches. simpl.
  rewrite !GetNodeName_first by done.
  apply empty_false in Hf, Hn. by rewrite Hf, Hn.
Qed.

Lemma CreateSaverDef_shared_node_witness :
  CreateSaverDef "restore_op" "tf_quant__save_op"
    (["Unrelated"] ++ "restore_op_tf_quant__save_op" :: ["later"])
    sample_graph
  = OkValue (Some {| filename_tensor_name := "file_prefix:0";
                     save_tensor_name := "restore_op_tf_quant__save_op:0";
                     restore_op_name := "restore_op_tf_quant__save_op";
                     max_to_keep := 0; sharded := false;
                     version := V2 |}).
Proof.
  apply (CreateSaverDef_shared_node "restore_op" "tf_quant__save_op"
           ["Unrelated"] "restore_op_tf_quant__save_op" ["later"]
           sample_graph).
  - discriminate.
  - intros x Hx. each_element Hx. by apply StrContains_false.
  - intros x Hx. each_element Hx. by apply StrContains_false.
  - by apply StrContains_spec.
  - by apply StrContains_spec.
  - by vm_compute.
Defined.

Lemma GetNodeName_filter (P : string → Prop) `{∀ x, Decision (P x)}
    (names : list string) (marker : string) :
  (∀ n, n ∈ names → IsSubstring marker n → P n) →
  GetNodeName (filter P names) marker = GetNodeName names marker.
Proof.
  induction names as [|n names IH]; intros Hkeep; [done |].
  assert (GetNodeName (filter P names) marker = GetNodeName names marker)
    as IH'.
  { apply IH. intros x Hx. apply Hkeep. by right. }
  destruct (decide (P n)) as [Hn | Hn].
  - rewrite filter_cons_True by done. simpl. by rewrite IH'.
  - rewrite filter_cons_False by done. simpl.
    assert (StrContains n marker = false) as ->; [| done].
    apply StrContains_false. intros Hsub. apply Hn, Hkeep; [left | done].
Qed.

Lemma FindFilePrefixTensorName_nodes_filter (P : NodeDef → Prop)
    `{∀ x, Decision (P x)} (nodes : list NodeDef) :
  (∀ nd, nd ∈ nodes → IsFilePrefixArg nd → P nd) →
  FindFilePrefixTensorName_nodes (filter P nodes)
  = FindFilePrefixTensorName_nodes nodes.
Proof.
  induction nodes as [|nd nodes IH]; intros Hkeep; [done |].
  assert (FindFilePrefixTensorName_nodes (filter P nodes)
          = FindFilePrefixTensorName_nodes nodes) as IH'.
  { apply IH. intros x Hx. apply Hkeep. by right. }
  destruct (decide (P nd)) as [Hnd | Hnd].
  - rewrite filter_cons_True by done. simpl. by rewrite IH'.
  - rewrite filter_cons_False by done. simpl.
    assert (is_file_prefix_arg nd = false) as ->; [| done].
    apply is_file_prefix_arg_false. intros Harg.
    apply Hnd, Hkeep; [left | done].
Qed.

(** X11: [CreateSaverDef] looks only at the argument nodes of the graph
    and at the control-output names that contain one of the two markers:
    dropping every other node and every other name, keeping the order,
    does not change its result. *)
Theorem CreateSaverDef_ignores_unrelated (restore_marker save_marker : string)
    (names : list string) (graph : GraphDef) :
  CreateSaverDef restore_marker save_marker
    (filter (λ n, StrContains n restore_marker = true
                  ∨ StrContains n save_marker = true) names)
    {| node := filter (λ nd, op nd = "_Arg") (node graph) |}
  = CreateSaverDef restore_marker save_marker names graph.
Proof.
  rewrite !CreateSaverDef_branches. simpl.
  unfold FindFilePrefixTensorName. simpl.
  rewrite FindFilePrefixTensorName_nodes_filter
    by (intros nd _ [Hop _]; done).
  rewrite !GetNodeName_filter
    by (intros n _ Hn; apply StrContains_spec in Hn; by (left + right)).
  done.
Qed.

(** ** More on [CreateExportedModel] *)

(** X12: [CreateExportedModel] stores every argument in the field of
    its name: the alias map has the same lookups as the one passed in,
    the asset file definitions are the given ones in the given order,
    and the saver descriptor is present exactly when one was passed. *)
Theorem CreateExportedModel_fields (g : GraphDef) (init dir : string)
    (sd : option SaverDef) (aliases : gmap string string)
    (assets : list AssetFileDef) :
  let exported_model :=
    fst (CreateExportedModel g init dir sd aliases assets) in
  graph_def exported_model = g
  ∧ init_node_name exported_model = init
  ∧ checkpoint_dir exported_model = dir
  ∧ (∀ k, function_aliases exported_model !! k = aliases !! k)
  ∧ asset_file_defs exported_model = assets
  ∧ saver_def exported_model = sd.
Proof.
  intros exported_model. subst exported_model.
  rewrite CreateExportedModel_result. simpl. done.
Qed.

(** ** More on [AddExportPasses] *)

(** X13: [AddExportPasses] only appends: what was already in the pass
    manager stays in front, unchanged, followed by what the function
    adds to an empty manager, nine stages with the flag and eight
    without.  It is not idempotent: a second call appends the whole
    sequence again. *)
Theorem AddExportPasses_appends (pm : PassManager) (flag flag' : bool) :
  AddExportPasses pm flag = pm ++ AddExportPasses [] flag
  ∧ length (AddExportPasses pm flag)
    = length pm + (if flag then 9 else 8)
  ∧ AddExportPasses (AddExportPasses pm flag) flag'
    = pm ++ AddExportPasses [] flag ++ AddExportPasses [] flag'.
Proof.
  assert (∀ pm0 b, AddExportPasses pm0 b = pm0 ++ AddExportPasses [] b)
    as Happ.
  { intros pm0 b. unfold AddExportPasses, addPass, addNestedPass.
    destruct b; by rewrite <- !app_assoc. }
  split; [apply Happ | split].
  - rewrite Happ, length_app. by destruct flag.
  - by rewrite (Happ (AddExportPasses pm flag)), (Happ pm), <- app_assoc.
Qed.

(** ** [CreateSaverDef] on empty inputs *)

(** X14: without control-output names, or on a graph without nodes,
    [CreateSaverDef] never returns a descriptor; with neither it returns
    "no descriptor".  With no names and a file-prefix argument in the
    graph it is an error whose message shows the tensor name followed by
    two empty fields. *)
Theorem CreateSaverDef_empty_inputs (restore_marker save_marker : string)
    (names : list string) (graph : GraphDef) :
  (∀ sd, CreateSaverDef restore_marker save_marker [] graph
         ≠ OkValue (Some sd))
  ∧ (∀ sd, CreateSaverDef restore_marker save_marker names {| node := [] |}
           ≠ OkValue (Some sd))
  ∧ CreateSaverDef restore_marker save_marker [] {| node := [] |}
    = OkValue None
  ∧ (FindFilePrefixTensorName graph = ""
     ∨ CreateSaverDef restore_marker save_marker [] graph
       = NotOk {| code := kInternal;
                  message := SaverDef_error_prefix
                             +:+ FindFilePrefixTensorName graph +:+ ",,"
               |}).
Proof.
  split; [| split; [| split]].
  - intros sd. rewrite CreateSaverDef_branches. simpl.
    by destruct (empty (FindFilePrefixTensorName graph)).
  - intros sd. rewrite CreateSaverDef_branches. simpl.
    by destruct (empty (GetNodeName names restore_marker)),
                (empty (GetNodeName names save_marker)).
  - reflexivity.
  - rewrite CreateSaverDef_branches. simpl.
    destruct (FindFilePrefixTensorName graph) as [|c f]; [by left | by right].
Qed.
